(** * xsetns: the starter's wrapper around the setns system call

    Verification of [cmd/starter/c/setns.c].  The file holds one function,
    [xsetns], compiled in one of two variants chosen by the preprocessor
    test [#ifdef __NR_setns]:

    - with the syscall number: [return syscall(__NR_setns, fd, nstype);]
    - without it: a warning through [singularity_message], then
      [errno = ENOSYS; return -1;].

    The kernel, the C library's [syscall] entry and the message printer are
    outside the file.  They are modelled as an explicit environment (class
    [Platform]) so that every statement below is about what [xsetns] itself
    adds to them. *)

From stdpp Require Import base numbers option list gmap strings.

Local Open Scope Z_scope.

(** ** Kernel-side state *)

(** The namespace kinds a descriptor may refer to. *)
Inductive nskind : Set :=
  | NsMnt | NsCgroup | NsUts | NsIpc | NsUser | NsPid | NsNet.

#[global] Instance nskind_eq_dec : EqDecision nskind.
Proof. solve_decision. Defined.

Definition nskind_code (k : nskind) : nat :=
  match k with
  | NsMnt => 0 | NsCgroup => 1 | NsUts => 2 | NsIpc => 3
  | NsUser => 4 | NsPid => 5 | NsNet => 6
  end%nat.

Definition nskind_decode (n : nat) : option nskind :=
  match n with
  | 0 => Some NsMnt | 1 => Some NsCgroup | 2 => Some NsUts | 3 => Some NsIpc
  | 4 => Some NsUser | 5 => Some NsPid | 6 => Some NsNet
  | _ => None
  end%nat.

#[global] Instance nskind_countable : Countable nskind.
Proof.
  apply (inj_countable nskind_code nskind_decode).
  by intros [].
Defined.

(** Identity of a namespace instance (what [/proc/self/ns/<kind>] shows). *)
Definition nsid : Set := N.

(** What an open descriptor refers to: a namespace file, a pidfd (with the
    namespaces of the process it names), or anything else. *)
Inductive file : Type :=
  | NsFile (kind : nskind) (ns : nsid)
  | PidFd (target : gmap nskind nsid)
  | OtherFile.

(** The part of the kernel's per-task state the wrapper can influence:
    namespace membership, the descriptor table, and whether the task may
    change namespaces. *)
Record Kernel : Type := mkKernel {
  membership : gmap nskind nsid;
  fdtable    : gmap Z file;
  privileged : bool
}.

(** ** Process state *)

(** User-visible process state: the kernel part, the C library's [errno]
    slot and the diagnostic channel. *)
Record Proc (D : Type) : Type := mkProc {
  kern  : Kernel;
  errno : Z;
  diag  : D
}.
Arguments mkProc {D} _ _ _.
Arguments kern {D} _.
Arguments errno {D} _.
Arguments diag {D} _.

(** The calls [xsetns] makes to its collaborators, in program order. *)
Inductive call : Set :=
  | CSyscall (nr : Z) (args : list Z)
  | CMessage (level : Z) (text : string).

Definition is_syscall (c : call) : bool :=
  match c with CSyscall _ _ => true | CMessage _ _ => false end.

Definition is_message (c : call) : bool :=
  match c with CSyscall _ _ => false | CMessage _ _ => true end.

(** A process state together with the record of calls made so far.  The
    record is instrumentation: no collaborator can read or write it. *)
Record World (D : Type) : Type := mkWorld {
  proc  : Proc D;
  calls : list call
}.
Arguments mkWorld {D} _ _.
Arguments proc {D} _.
Arguments calls {D} _.

(** ** What the file takes from outside *)

(** Header constants and the two collaborators of [setns.c].

    - [ENOSYS] comes from [<errno.h>], [WARNING] from [include/message.h];
    - [kernel_entry nr args k] is the raw system call: the kernel's new
      state and the value it leaves in the return register;
    - [message_print level text p] is the effect of one
      [singularity_message(level, text)] on the process. *)
Class Platform : Type := {
  channel : Type;
  ENOSYS : Z;
  WARNING : Z;
  kernel_entry : Z → list Z → Kernel → Kernel * Z;
  message_print : Z → string → Proc channel → Proc channel
}.

(** ** The state monad the C code lives in *)

Definition M (D A : Type) : Type := World D → A * World D.

Definition ret {D A} (a : A) : M D A := λ w, (a, w).

Definition bind {D A B} (m : M D A) (f : A → M D B) : M D B :=
  λ w, let '(a, w') := m w in f a w'.

Declare Scope c_scope.
Delimit Scope c_scope with C.
Notation "'let*' x ':=' m 'in' k" := (bind m (λ x, k))
  (at level 10, x name, m at level 100, k at level 200) : c_scope.
Notation "m ';;;' k" := (bind m (λ _, k))
  (at level 100, k at level 200, right associativity) : c_scope.

(** [long] to [int] conversion of a return value (two's complement wrap). *)
Definition int_of_long (x : Z) : Z :=
  let m := x mod 2 ^ 32 in
  if m <? 2 ^ 31 then m else m - 2 ^ 32.

(** The error window of the Linux syscall return convention. *)
Definition is_kernel_error (raw : Z) : bool :=
  (-4095 <=? raw) && (raw <? 0).

Section Code.
Context {P : Platform}.

(** C library [syscall(nr, args...)]: one kernel entry; a raw result in
    the error window is stored negated in [errno] and reported as -1, any
    other result is returned as it is and [errno] is left alone. *)
Definition syscall (nr : Z) (args : list Z) : M channel Z := λ w,
  let '(k', raw) := kernel_entry nr args (kern (proc w)) in
  let cs := calls w ++ [CSyscall nr args] in
  if is_kernel_error raw
  then (-1, mkWorld (mkProc k' (- raw) (diag (proc w))) cs)
  else (raw, mkWorld (mkProc k' (errno (proc w)) (diag (proc w))) cs).

(** [singularity_message(level, text)]: one call to the printer. *)
Definition singularity_message (level : Z) (text : string)
  : M channel unit := λ w,
  (tt, mkWorld (message_print level text (proc w))
               (calls w ++ [CMessage level text])).

(** The assignment [errno = v;]. *)
Definition set_errno (v : Z) : M channel unit := λ w,
  (tt, mkWorld (mkProc (kern (proc w)) v (diag (proc w))) (calls w)).

(** The text of the warning, with its final newline. *)
Definition unsupported_text : string :=
  "setns() not supported at compile time by kernel at time of building"
    +:+ String (Ascii.ascii_of_nat 10) EmptyString.

(** [xsetns].  The first argument is the preprocessor's view of
    [__NR_setns]: [Some nr] when the headers define it, [None] when they
    do not.  The second variant's [(void)fd; (void)nstype;] evaluate and
    discard the arguments, so they leave no trace here. *)
Definition xsetns (NR_setns : option Z) (fd nstype : Z) : M channel Z :=
  match NR_setns with
  | Some nr =>
      (let* r := syscall nr [fd; nstype] in
       ret (int_of_long r))%C
  | None =>
      (singularity_message WARNING unsupported_text ;;;
       set_errno ENOSYS ;;;
       ret (-1))%C
  end.

End Code.

(** The calls made between two worlds of one run. *)
Definition emitted {D} (w w' : World D) : list call :=
  drop (length (calls w)) (calls w').

(** ** Kernel vocabulary *)

(** Namespace-type flags of [<sched.h>] (the same on every Linux port). *)
Definition clone_flag (kind : nskind) : Z :=
  match kind with
  | NsMnt    => 2 ^ 17
  | NsCgroup => 2 ^ 25
  | NsUts    => 2 ^ 26
  | NsIpc    => 2 ^ 27
  | NsUser   => 2 ^ 28
  | NsPid    => 2 ^ 29
  | NsNet    => 2 ^ 30
  end.

(** A type flag fits a descriptor when it is 0 (any kind) or the flag of the
    descriptor's own kind. *)
Definition nstype_matches (nstype : Z) (kind : nskind) : bool :=
  (nstype =? 0) || (nstype =? clone_flag kind).

(** Error numbers of [<asm-generic/errno-base.h>]. *)
Definition EPERM  : Z := 1.
Definition EBADF  : Z := 9.
Definition EINVAL : Z := 22.

(** Moving the task into namespace [ns] of kind [kind]; nothing else of the
    kernel state moves. *)
Definition join_ns (kind : nskind) (ns : nsid) (k : Kernel) : Kernel :=
  mkKernel (<[kind := ns]> (membership k)) (fdtable k) (privileged k).



(** The message printer writes diagnostics; it may use [errno] but leaves
    the kernel part of the process alone. *)
Definition printer_keeps_kernel {P : Platform} : Prop :=
  ∀ level text p, kern (message_print level text p) = kern p.

(** ** A reference platform

    One concrete environment, used to run the wrapper on examples: a kernel
    whose [setns] follows setns(2), and a printer that appends to the
    channel and leaves a stale error number behind.

    Of setns(2) the kernel models: the descriptor lookup (EBADF), the type
    flag of a namespace file (EINVAL on a mismatch), the flag set of a
    pidfd, the refusal to re-enter the caller's own user namespace
    (EINVAL), the PID-namespace join that only affects future children
    and so leaves the caller's own membership, and the privilege check
    (EPERM).  Thread and filesystem sharing conditions and PID-namespace
    ancestry are not modelled. *)
Module Ref.

Definition all_kinds : list nskind :=
  [NsMnt; NsCgroup; NsUts; NsIpc; NsUser; NsPid; NsNet].

Definition known_flags : Z :=
  foldr (λ kind acc, Z.lor (clone_flag kind) acc) 0 all_kinds.

Definition wants (flags : Z) (kind : nskind) : bool :=
  negb (Z.land flags (clone_flag kind) =? 0).

(** Installing one namespace: the new kernel state, or an error number. *)
Definition install (kind : nskind) (ns : nsid) (k : Kernel) : Kernel + Z :=
  match kind with
  | NsUser =>
      if decide (membership k !! NsUser = Some ns) then inr EINVAL
      else if privileged k then inl (join_ns NsUser ns k) else inr EPERM
  | NsPid => if privileged k then inl k else inr EPERM
  | _ => if privileged k then inl (join_ns kind ns k) else inr EPERM
  end.

Definition install_wanted (flags : Z) (target : gmap nskind nsid)
    (acc : Kernel + Z) (kind : nskind) : Kernel + Z :=
  match acc with
  | inr e => inr e
  | inl k =>
      if wants flags kind
      then match target !! kind with
           | Some ns => install kind ns k
           | None => inr EINVAL
           end
      else inl k
  end.

Definition sys_setns (k : Kernel) (fd nstype : Z) : Kernel * Z :=
  let answer (r : Kernel + Z) :=
    match r with inl k' => (k', 0) | inr e => (k, - e) end in
  match fdtable k !! fd with
  | None => (k, - EBADF)
  | Some (NsFile kind ns) =>
      if nstype_matches nstype kind
      then answer (install kind ns k)
      else (k, - EINVAL)
  | Some (PidFd target) =>
      if (nstype =? 0) || negb (Z.land nstype (Z.lnot known_flags) =? 0)
      then (k, - EINVAL)
      else answer (foldl (install_wanted nstype target) (inl k) all_kinds)
  | Some OtherFile => (k, - EINVAL)
  end.

(** x86-64 number of [setns]. *)
Definition NR_setns : Z := 308.

Definition entry (nr : Z) (args : list Z) (k : Kernel) : Kernel * Z :=
  if nr =? NR_setns
  then match args with
       | [fd; nstype] => sys_setns k fd nstype
       | _ => (k, - EINVAL)
       end
  else (k, - 38).

(** [ENOTTY], what a terminal test on a redirected stream leaves. *)
Definition ENOTTY : Z := 25.

Definition print (level : Z) (text : string) (p : Proc (list string))
  : Proc (list string) :=
  mkProc (kern p) ENOTTY (diag p ++ [text]).

Definition platform : Platform :=
  {| channel := list string;
     ENOSYS := 38;
     WARNING := -2;
     kernel_entry := entry;
     message_print := print |}.

(** Descriptor 3 is open on a UTS namespace 4026532000, descriptor 4 on a
    regular file, descriptor 5 is closed.  The task lives in UTS namespace
    4026531838. *)
Definition k0 : Kernel :=
  mkKernel {[ NsUts := 4026531838%N ]}
           {[ 3 := NsFile NsUts 4026532000%N; 4 := OtherFile ]}
           true.

Definition w0 : World (list string) := mkWorld (mkProc k0 0 []) [].

(** A second task, in user namespace 4026531837 and PID namespace
    4026531836.  Descriptor 6 is open on its own user namespace, 7 on
    another user namespace, 8 on another PID namespace, and 9 is a pidfd of
    a process living in UTS namespace 4026532000. *)
Definition k1 : Kernel :=
  mkKernel {[ NsUts := 4026531838%N; NsUser := 4026531837%N;
              NsPid := 4026531836%N ]}
           {[ 3 := NsFile NsUts 4026532000%N;
              6 := NsFile NsUser 4026531837%N;
              7 := NsFile NsUser 4026532001%N;
              8 := NsFile NsPid 4026532002%N;
              9 := PidFd {[ NsUts := 4026532000%N ]} ]}
           true.

Definition w1 : World (list string) := mkWorld (mkProc k1 0 []) [].

(** [xsetns] on this platform, and two type flags. *)
Definition run : option Z → Z → Z → M (list string) Z := @xsetns platform.
Definition uts : Z := clone_flag NsUts.
Definition net : Z := clone_flag NsNet.

End Ref.

(** ** Equations of the two variants *)

Section Equations.
Context {P : Platform}.

(** The variant with the syscall number, as one equation. *)
Lemma xsetns_some_eq (nr fd nstype : Z) (w : World channel) :
  xsetns (Some nr) fd nstype w =
    let kr := kernel_entry nr [fd; nstype] (kern (proc w)) in
    (int_of_long (if is_kernel_error kr.2 then -1 else kr.2),
     mkWorld
       (mkProc kr.1
               (if is_kernel_error kr.2 then - kr.2 else errno (proc w))
               (diag (proc w)))
       (calls w ++ [CSyscall nr [fd; nstype]])).
Proof.
  unfold xsetns, bind, ret, syscall.
  destruct (kernel_entry nr [fd; nstype] (kern (proc w))) as [k' raw].
  simpl. by destruct (is_kernel_error raw).
Qed.

(** The variant without it, as one equation. *)
Lemma xsetns_none_eq (fd nstype : Z) (w : World channel) :
  xsetns None fd nstype w =
    let p := message_print WARNING unsupported_text (proc w) in
    (-1, mkWorld (mkProc (kern p) ENOSYS (diag p))
                 (calls w ++ [CMessage WARNING unsupported_text])).
Proof. reflexivity. Qed.

Lemma emitted_app {D} (w : World D) (p : Proc D) (cs : list call) :
  emitted w (mkWorld p (calls w ++ cs)) = cs.
Proof. unfold emitted. simpl. by rewrite drop_app_length. Qed.

Lemma int_of_long_small (x : Z) :
  - 2 ^ 31 ≤ x < 2 ^ 31 → int_of_long x = x.
Proof.
  intros Hx. unfold int_of_long. cbv zeta.
  destruct (Z.ltb_spec (x mod 2 ^ 32) (2 ^ 31)) as [Hlt|Hge].
  - destruct (Z.neg_nonneg_cases x) as [Hneg|Hpos].
    + exfalso.
      replace (x mod 2 ^ 32) with (x + 2 ^ 32) in Hlt; [lia|].
      apply (Z.mod_unique_pos _ _ (-1)); lia.
    + apply Z.mod_small. lia.
  - destruct (Z.neg_nonneg_cases x) as [Hneg|Hpos].
    + replace (x mod 2 ^ 32) with (x + 2 ^ 32); [lia|].
      apply (Z.mod_unique_pos _ _ (-1)); lia.
    + exfalso. rewrite Z.mod_small in Hge; lia.
Qed.

Lemma is_kernel_error_spec (raw : Z) :
  is_kernel_error raw = true ↔ -4095 ≤ raw < 0.
Proof. unfold is_kernel_error. rewrite andb_true_iff. lia. Qed.

End Equations.

(** ** The reference printer only writes diagnostics *)

Lemma ref_print_keeps_kernel : @printer_keeps_kernel Ref.platform.
Proof. by intros level text p. Qed.

(** ** Properties of the variant with the syscall number *)

Section Supported.
Context {P : Platform}.
Implicit Types (nr fd nstype : Z) (w : World channel).

(** C1.  With the syscall number available, [xsetns fd nstype] enters the
    kernel exactly once, with the number of setns and the two arguments
    as received, and reports what the kernel reported: 0 with [errno]
    untouched when the kernel returned 0, and -1 with the kernel's code in
    [errno] when it returned a failure (any other value that fits an [int]
    is returned as it is).  Nothing else is called and the
    kernel state is the one that single entry produced. *)
Theorem xsetns_supported_passthrough nr fd nstype w :
  let kr := kernel_entry nr [fd; nstype] (kern (proc w)) in
  let out := xsetns (Some nr) fd nstype w in
  calls out.2 = calls w ++ [CSyscall nr [fd; nstype]] ∧
  kern (proc out.2) = kr.1 ∧
  (kr.2 = 0 → out.1 = 0 ∧ errno (proc out.2) = errno (proc w)) ∧
  (∀ e, 1 ≤ e ≤ 4095 → kr.2 = - e →
        out.1 = -1 ∧ errno (proc out.2) = e) ∧
  (¬ -4095 ≤ kr.2 < 0 → - 2 ^ 31 ≤ kr.2 < 2 ^ 31 →
        out.1 = kr.2 ∧ errno (proc out.2) = errno (proc w)).
Proof.
  intros kr out. subst out. rewrite xsetns_some_eq. fold kr. simpl.
  split; [reflexivity|]. split; [reflexivity|].
  split; [|split].
  - intros Hok. rewrite Hok. done.
  - intros e He Hraw.
    assert (Herr : is_kernel_error kr.2 = true)
      by (apply is_kernel_error_spec; lia).
    rewrite Herr. split; [reflexivity | lia].
  - intros Hnerr Hint.
    destruct (is_kernel_error kr.2) eqn:Herr.
    + apply is_kernel_error_spec in Herr. contradiction.
    + split; [by apply int_of_long_small | reflexivity].
Qed.

(** C10.  With the syscall number available, [xsetns] never calls the
    message printer, whatever the arguments and whatever the kernel
    answers: no message is among the calls it makes and the diagnostic
    channel is left as it was. *)
Theorem xsetns_supported_silent nr fd nstype w :
  let out := xsetns (Some nr) fd nstype w in
  existsb is_message (emitted w out.2) = false ∧
  diag (proc out.2) = diag (proc w).
Proof.
  intros out. subst out. rewrite xsetns_some_eq. simpl.
  rewrite emitted_app. done.
Qed.




End Supported.

(** ** Properties of the variant without the syscall number *)

Section Unsupported.
Context {P : Platform}.
Implicit Types (fd nstype : Z) (w : World channel).

(** C2.  Without the syscall number, [xsetns fd nstype] never enters the
    kernel, calls the message printer exactly once, at level WARNING,
    leaves ENOSYS in [errno] and returns -1, for every [fd] and
    [nstype]. *)
Theorem xsetns_unsupported_enosys fd nstype w :
  let out := xsetns None fd nstype w in
  out.1 = -1 ∧
  errno (proc out.2) = ENOSYS ∧
  calls out.2 = calls w ++ [CMessage WARNING unsupported_text] ∧
  existsb is_syscall (emitted w out.2) = false.
Proof.
  intros out. subst out. rewrite xsetns_none_eq. simpl.
  rewrite emitted_app. done.
Qed.

(** C4.  Without the syscall number the outcome does not depend on the
    arguments: from one starting state any two argument pairs give the
    same result and the same final state; and from any two starting
    states the return value, the [errno] left behind and the calls made
    are the same. *)
Theorem xsetns_unsupported_uniform fd1 nstype1 fd2 nstype2 :
  (∀ w, xsetns None fd1 nstype1 w = xsetns None fd2 nstype2 w) ∧
  (∀ w1 w2,
     let out1 := xsetns None fd1 nstype1 w1 in
     let out2 := xsetns None fd2 nstype2 w2 in
     out1.1 = out2.1 ∧
     errno (proc out1.2) = errno (proc out2.2) ∧
     emitted w1 out1.2 = emitted w2 out2.2).
Proof.
  split; [reflexivity|].
  intros w1 w2 out1 out2. subst out1 out2. rewrite !xsetns_none_eq. simpl.
  by rewrite !emitted_app.
Qed.

(** C5.  Without the syscall number, and with a printer that only writes
    diagnostics, [xsetns] leaves the kernel part of the process (namespace
    membership, descriptor table, privilege) exactly as it was; the
    diagnostic channel holds the effect of the one warning, and that
    warning is the only call made. *)
Theorem xsetns_unsupported_frame fd nstype w :
  printer_keeps_kernel →
  let out := xsetns None fd nstype w in
  kern (proc out.2) = kern (proc w) ∧
  membership (kern (proc out.2)) = membership (kern (proc w)) ∧
  diag (proc out.2) =
    diag (message_print WARNING unsupported_text (proc w)) ∧
  emitted w out.2 = [CMessage WARNING unsupported_text].
Proof.
  intros Hpr out. subst out. rewrite xsetns_none_eq. simpl.
  rewrite emitted_app, Hpr. done.
Qed.

(** C9.  Without the syscall number, the store to [errno] comes after the
    call to the printer: the final state is the printer's state with
    [errno] overwritten, so the caller reads ENOSYS whatever the printer
    did to [errno]. *)
Theorem xsetns_unsupported_errno_last fd nstype w :
  let logged := (singularity_message WARNING unsupported_text w).2 in
  let out := xsetns None fd nstype w in
  out.2 = (set_errno ENOSYS logged).2 ∧
  errno (proc out.2) = ENOSYS.
Proof. done. Qed.

End Unsupported.

(** ** Both variants *)

Section Descriptors.
Context {P : Platform}.

(** C8.  In either variant the only call [xsetns] makes is the one setns
    entry or the one warning, so it duplicates, closes and cleans up
    nothing itself; when that one call leaves the descriptor table alone,
    the table after [xsetns] is the one before it, whatever the call
    answered. *)
Theorem xsetns_keeps_descriptors
    (NR_setns : option Z) (fd nstype : Z) (w : World channel) :
  (∀ nr, NR_setns = Some nr →
     fdtable (kernel_entry nr [fd; nstype] (kern (proc w))).1 =
     fdtable (kern (proc w))) →
  (NR_setns = None →
     fdtable (kern (message_print WARNING unsupported_text (proc w))) =
     fdtable (kern (proc w))) →
  let out := xsetns NR_setns fd nstype w in
  fdtable (kern (proc out.2)) = fdtable (kern (proc w)) ∧
  emitted w out.2 =
    match NR_setns with
    | Some nr => [CSyscall nr [fd; nstype]]
    | None => [CMessage WARNING unsupported_text]
    end.
Proof.
  intros Hk Hpr out. subst out. destruct NR_setns as [nr|].
  - rewrite xsetns_some_eq. simpl. rewrite emitted_app.
    split; [|reflexivity]. exact (Hk nr eq_refl).
  - rewrite xsetns_none_eq. simpl. rewrite emitted_app.
    split; [|reflexivity]. exact (Hpr eq_refl).
Qed.

End Descriptors.

(** ** Runs on the reference platform *)

Section Runs.
Import Ref.

(** Joining the UTS namespace behind descriptor 3. *)
Example run_join_uts :
  run (Some 308) 3 uts Ref.w0 =
    (0, mkWorld (mkProc (join_ns NsUts 4026532000%N Ref.k0) 0 [])
                [CSyscall 308 [3; uts]]).
Proof. vm_compute. reflexivity. Qed.

(** Type flag 0 accepts the descriptor's own kind. *)
Example run_join_any :
  (run (Some 308) 3 0 Ref.w0).1 = 0.
Proof. vm_compute. reflexivity. Qed.

(** A closed descriptor: EBADF, nothing moved. *)
Example run_closed_fd :
  run (Some 308) 5 uts Ref.w0 =
    (-1, mkWorld (mkProc Ref.k0 EBADF []) [CSyscall 308 [5; uts]]).
Proof. vm_compute. reflexivity. Qed.

(** A descriptor on a regular file: EINVAL, nothing moved. *)
Example run_regular_file :
  run (Some 308) 4 uts Ref.w0 =
    (-1, mkWorld (mkProc Ref.k0 EINVAL []) [CSyscall 308 [4; uts]]).
Proof. vm_compute. reflexivity. Qed.

(** A UTS descriptor joined as a network namespace: EINVAL. *)
Example run_wrong_kind :
  run (Some 308) 3 net Ref.w0 =
    (-1, mkWorld (mkProc Ref.k0 EINVAL []) [CSyscall 308 [3; net]]).
Proof. vm_compute. reflexivity. Qed.

(** The build without the syscall number: the printer leaves ENOTTY in
    [errno], the caller still reads ENOSYS (38). *)
Example run_unsupported :
  run None 3 uts Ref.w0 =
    (-1, mkWorld (mkProc Ref.k0 38 [unsupported_text])
                 [CMessage (-2) unsupported_text]).
Proof. vm_compute. reflexivity. Qed.

Example run_unsupported_printer_errno :
  errno (proc (@singularity_message Ref.platform (-2) unsupported_text
                 Ref.w0).2) = Ref.ENOTTY.
Proof. reflexivity. Qed.
End Runs.

(** ** Instances of the conditional statements *)




Lemma xsetns_unsupported_frame_witness :
  let out := @xsetns Ref.platform None 3 (clone_flag NsUts) Ref.w0 in
  kern (proc out.2) = Ref.k0 ∧
  membership (kern (proc out.2)) = membership Ref.k0 ∧
  diag (proc out.2) = [unsupported_text] ∧
  emitted Ref.w0 out.2 = [CMessage (-2) unsupported_text].
Proof.
  apply (@xsetns_unsupported_frame Ref.platform 3 (clone_flag NsUts) Ref.w0).
  exact ref_print_keeps_kernel.
Defined.

Lemma xsetns_keeps_descriptors_witness :
  let out := @xsetns Ref.platform (Some Ref.NR_setns) 3 (clone_flag NsUts)
               Ref.w0 in
  fdtable (kern (proc out.2)) = fdtable Ref.k0 ∧
  emitted Ref.w0 out.2 = [CSyscall Ref.NR_setns [3; clone_flag NsUts]].
Proof.
  apply (@xsetns_keeps_descriptors Ref.platform (Some Ref.NR_setns) 3
           (clone_flag NsUts) Ref.w0).
  - intros nr [= <-]. vm_compute. reflexivity.
  - intros [=].
Defined.

(** ** Where the kernel decides otherwise

    Runs on the reference kernel at which a valid descriptor is refused, a
    join leaves the caller where it was, a second join is refused, and a
    descriptor that is no namespace file is accepted. *)




(** ** Further properties of the two variants *)

Section Conversion.

Lemma int_of_long_range (x : Z) : - 2 ^ 31 ≤ int_of_long x < 2 ^ 31.
Proof.
  unfold int_of_long. cbv zeta.
  pose proof (Z.mod_pos_bound x (2 ^ 32) ltac:(lia)) as Hm.
  destruct (Z.ltb_spec (x mod 2 ^ 32) (2 ^ 31)); lia.
Qed.

Lemma int_of_long_congr (x : Z) :
  int_of_long x mod 2 ^ 32 = x mod 2 ^ 32.
Proof.
  unfold int_of_long. cbv zeta.
  destruct (Z.ltb_spec (x mod 2 ^ 32) (2 ^ 31)).
  - apply Z.mod_mod. lia.
  - replace (x mod 2 ^ 32 - 2 ^ 32) with (x mod 2 ^ 32 + (-1) * 2 ^ 32)
      by lia.
    rewrite Z.mod_add by lia. apply Z.mod_mod. lia.
Qed.

End Conversion.

Section More.
Context {P : Platform}.
Implicit Types (nr fd nstype : Z) (w : World channel).

(** X1.  Whatever the build and whatever the kernel answers, the value
    [xsetns] returns fits a C [int]; with the syscall number available it
    is the value the C library's [syscall] returned, reduced modulo 2^32
    (the [long] result is narrowed by the [return]). *)
Theorem xsetns_return_is_int (NR_setns : option Z) fd nstype w :
  - 2 ^ 31 ≤ (xsetns NR_setns fd nstype w).1 < 2 ^ 31 ∧
  ∀ nr, NR_setns = Some nr →
    (xsetns NR_setns fd nstype w).1 mod 2 ^ 32 =
    (syscall nr [fd; nstype] w).1 mod 2 ^ 32.
Proof.
  destruct NR_setns as [nr|].
  - split.
    + rewrite xsetns_some_eq. simpl. apply int_of_long_range.
    + intros nr' [= <-]. unfold xsetns, bind, ret.
      destruct (syscall nr [fd; nstype] w) as [r w'].
      simpl. apply int_of_long_congr.
  - split; [rewrite xsetns_none_eq; simpl; lia | intros nr' [=]].
Qed.

(** X2.  With the syscall number available and for every kernel answer:
    [xsetns] changes [errno] only on a call that returns -1, and the value
    it stores is then an error number between 1 and 4095.  A call that
    returns anything else leaves [errno] as the caller had it. *)
Theorem xsetns_supported_errno_discipline nr fd nstype w :
  let out := xsetns (Some nr) fd nstype w in
  (out.1 ≠ -1 → errno (proc out.2) = errno (proc w)) ∧
  (errno (proc out.2) = errno (proc w) ∨
   out.1 = -1 ∧ 1 ≤ errno (proc out.2) ≤ 4095).
Proof.
  intros out. subst out. rewrite xsetns_some_eq. simpl.
  destruct (is_kernel_error _) eqn:Herr.
  - apply is_kernel_error_spec in Herr. split.
    + intros Hne. by destruct Hne.
    + right. split; [reflexivity | lia].
  - split; [reflexivity | by left].
Qed.

(** X3.  With the syscall number available and a kernel answer that fits
    an [int]: [xsetns] returns -1 exactly when the kernel reported a
    failure (an answer in -4095..-1), and [errno] then holds that answer
    negated. *)
Theorem xsetns_supported_failure_iff nr fd nstype w :
  let raw := (kernel_entry nr [fd; nstype] (kern (proc w))).2 in
  let out := xsetns (Some nr) fd nstype w in
  - 2 ^ 31 ≤ raw < 2 ^ 31 →
  (out.1 = -1 ↔ -4095 ≤ raw < 0) ∧
  (out.1 = -1 → errno (proc out.2) = - raw).
Proof.
  intros raw out Hint. subst out raw. rewrite xsetns_some_eq. simpl.
  set (raw := (kernel_entry nr [fd; nstype] (kern (proc w))).2) in *.
  destruct (is_kernel_error raw) eqn:Herr.
  - apply is_kernel_error_spec in Herr.
    split; [split; [intros _; exact Herr | intros _; reflexivity]|].
    intros _. reflexivity.
  - assert (Hn : ¬ -4095 ≤ raw < 0).
    { intros Hw. apply is_kernel_error_spec in Hw. congruence. }
    rewrite (int_of_long_small raw Hint). split.
    + split; [intros -> | intros Hw; by destruct Hn]. lia.
    + intros ->. lia.
Qed.

(** X4.  The variant without the syscall number answers as a kernel
    without setns would: when the kernel refuses the call with [-ENOSYS]
    and changes nothing, and the printer only writes diagnostics, both
    variants return -1, leave ENOSYS in [errno] and leave the kernel state
    alone.  They differ only in the call made: one kernel entry against
    one warning. *)
Theorem xsetns_variants_agree_on_enosys nr fd nstype w :
  1 ≤ ENOSYS ≤ 4095 →
  kernel_entry nr [fd; nstype] (kern (proc w)) = (kern (proc w), - ENOSYS) →
  printer_keeps_kernel →
  let with_nr := xsetns (Some nr) fd nstype w in
  let without := xsetns None fd nstype w in
  with_nr.1 = without.1 ∧
  errno (proc with_nr.2) = errno (proc without.2) ∧
  kern (proc with_nr.2) = kern (proc without.2) ∧
  emitted w with_nr.2 = [CSyscall nr [fd; nstype]] ∧
  emitted w without.2 = [CMessage WARNING unsupported_text].
Proof.
  intros Hrange Hk Hpr with_nr without. subst with_nr without.
  rewrite xsetns_some_eq, xsetns_none_eq, Hk. simpl.
  assert (Herr : is_kernel_error (- ENOSYS) = true)
    by (apply is_kernel_error_spec; lia).
  rewrite Herr, !emitted_app, Hpr.
  repeat split. lia.
Qed.

(** X5.  Without the syscall number nothing is remembered between calls:
    two calls in a row, with any arguments, each print the warning and each
    return -1 with ENOSYS in [errno]; the second warning is printed on the
    state the first call left, where [errno] is already ENOSYS. *)
Theorem xsetns_unsupported_repeats fd1 nstype1 fd2 nstype2 w :
  let out1 := xsetns None fd1 nstype1 w in
  let out2 := xsetns None fd2 nstype2 out1.2 in
  let warn := CMessage WARNING unsupported_text in
  out1.1 = -1 ∧ out2.1 = -1 ∧
  calls out2.2 = calls w ++ [warn; warn] ∧
  errno (proc out1.2) = ENOSYS ∧ errno (proc out2.2) = ENOSYS ∧
  diag (proc out2.2) =
    diag (message_print WARNING unsupported_text
            (mkProc (kern (proc out1.2)) ENOSYS (diag (proc out1.2)))).
Proof.
  intros out1 out2 warn. subst out2 out1 warn.
  rewrite !xsetns_none_eq. simpl.
  rewrite <- app_assoc. done.
Qed.

End More.

Lemma xsetns_supported_failure_iff_witness :
  let out := @xsetns Ref.platform (Some Ref.NR_setns) 5 Ref.uts Ref.w0 in
  (out.1 = -1 ↔
   -4095 ≤ (Ref.entry Ref.NR_setns [5; Ref.uts] Ref.k0).2 < 0) ∧
  (out.1 = -1 →
   errno (proc out.2) = - (Ref.entry Ref.NR_setns [5; Ref.uts] Ref.k0).2).
Proof.
  apply (@xsetns_supported_failure_iff Ref.platform Ref.NR_setns 5 Ref.uts
           Ref.w0).
  vm_compute. split; [discriminate | reflexivity].
Defined.

Lemma xsetns_variants_agree_on_enosys_witness :
  let with_nr := @xsetns Ref.platform (Some 400) 3 Ref.uts Ref.w0 in
  let without := @xsetns Ref.platform None 3 Ref.uts Ref.w0 in
  with_nr.1 = without.1 ∧
  errno (proc with_nr.2) = errno (proc without.2) ∧
  kern (proc with_nr.2) = kern (proc without.2) ∧
  emitted Ref.w0 with_nr.2 = [CSyscall 400 [3; Ref.uts]] ∧
  emitted Ref.w0 without.2 = [CMessage (-2) unsupported_text].
Proof.
  apply (@xsetns_variants_agree_on_enosys Ref.platform 400 3 Ref.uts Ref.w0).
  - simpl. lia.
  - reflexivity.
  - exact ref_print_keeps_kernel.
Defined.

Section Sequences.
Context {P : Platform}.
Implicit Types (nr fd nstype e : Z) (w : World channel).

(** X6.  With the syscall number available, a successful call does not
    clear [errno]: when one call is refused by the kernel with code [e] and
    the next one succeeds, the second call returns 0 while [errno] still
    holds [e].  The two calls are two kernel entries, in order. *)
Theorem xsetns_success_keeps_errno nr fd1 nstype1 fd2 nstype2 e k1 k2 w :
  1 ≤ e ≤ 4095 →
  kernel_entry nr [fd1; nstype1] (kern (proc w)) = (k1, - e) →
  kernel_entry nr [fd2; nstype2] k1 = (k2, 0) →
  let out1 := xsetns (Some nr) fd1 nstype1 w in
  let out2 := xsetns (Some nr) fd2 nstype2 out1.2 in
  out1.1 = -1 ∧ out2.1 = 0 ∧
  errno (proc out2.2) = e ∧
  kern (proc out2.2) = k2 ∧
  calls out2.2 =
    calls w ++ [CSyscall nr [fd1; nstype1]; CSyscall nr [fd2; nstype2]].
Proof.
  intros He Hk1 Hk2 out1 out2. subst out2 out1.
  rewrite !xsetns_some_eq. rewrite Hk1. simpl. rewrite Hk2. simpl.
  assert (Herr : is_kernel_error (- e) = true)
    by (apply is_kernel_error_spec; lia).
  rewrite Herr, <- app_assoc. simpl.
  repeat split. lia.
Qed.

End Sequences.

Lemma xsetns_success_keeps_errno_witness :
  let out1 := @xsetns Ref.platform (Some Ref.NR_setns) 5 Ref.uts Ref.w0 in
  let out2 := @xsetns Ref.platform (Some Ref.NR_setns) 3 Ref.uts out1.2 in
  out1.1 = -1 ∧ out2.1 = 0 ∧
  errno (proc out2.2) = EBADF ∧
  kern (proc out2.2) = join_ns NsUts 4026532000%N Ref.k0 ∧
  calls out2.2 =
    calls Ref.w0 ++ [CSyscall Ref.NR_setns [5; Ref.uts];
                     CSyscall Ref.NR_setns [3; Ref.uts]].
Proof.
  apply (@xsetns_success_keeps_errno Ref.platform Ref.NR_setns 5 Ref.uts
           3 Ref.uts EBADF Ref.k0 (join_ns NsUts 4026532000%N Ref.k0)
           Ref.w0).
  - unfold EBADF. lia.
  - vm_compute. reflexivity.
  - vm_compute. reflexivity.
Defined.
